(** * Swaption volatility structure: range checks and coordinate conversion

    A shallow embedding of [SwaptionVolatilityStructure]
    (ql/Volatilities/swaptionvolstructure.hpp): the three overload families
    of [volatility] and [blackVariance], the two [checkRange] entry points,
    [convertDates], [optionDateFromTenor], [maxSwapLength] and the date-based
    [smileSection].

    - [Time], [Rate], [Real] and [Volatility] are C++ [double]s: binary64
      floats, with the comparisons and products of the source written with
      the primitive float operations.
    - [QL_REQUIRE] throws: a method that can throw returns a [result].
    - Virtual methods with a body in the header are embedded twice: the body
      of the base class ([base_convertDates], ...) and the virtual call
      ([convertDates], ...), which runs the override of the concrete surface
      when there is one and the body of the base class otherwise. *)

From Stdlib Require Import ZArith Bool String Floats Lia.
From Stdlib Require Import List.

Open Scope Z_scope.

(** ** Numbers *)

Definition Real := float.
Definition Time := Real.
Definition Rate := Real.
Definition Volatility := Real.
Definition Integer := Z.

Bind Scope float_scope with Real Time Rate Volatility.
Bind Scope Z_scope with Integer.

(** ** Dates, periods and conventions

    The date library is not part of the header. A [Date] is the serial
    number that the library's date wraps, so that dates are compared as
    integers; a [Period] is a length and a unit. *)

Definition Date := Z.

Bind Scope Z_scope with Date.

Inductive TimeUnit : Type := Days | Weeks | Months | Years.

Module Period.
Record t : Type := make { length : Integer; units : TimeUnit }.
End Period.

Inductive BusinessDayConvention : Type :=
| Following
| ModifiedFollowing
| Preceding
| ModifiedPreceding
| Unadjusted.

(** What the header takes from the rest of the library: the types it only
    passes around and the date operations it calls. They are parameters of
    the development, one instance per library. *)
Class Library : Type := {
  Calendar : Type;
  DayCounter : Type;
  SmileSection : Type;
  (** [operator+(const Date&, const Period&)] *)
  Date_plus_Period : Date -> Period.t -> Date;
  (** [operator<=(const Period&, const Period&)] *)
  Period_le : Period.t -> Period.t -> bool;
  (** [Calendar::advance(const Date&, const Period&, BusinessDayConvention)] *)
  Calendar_advance : Calendar -> Date -> Period.t -> BusinessDayConvention -> Date;
  (** [DayCounter::yearFraction(const Date&, const Date&)] *)
  DayCounter_yearFraction : DayCounter -> Date -> Date -> Time
}.

(** ** Errors *)

(** One constructor per message of the header; [ForeignError] is what the
    code outside the header raises (the check of the base class, the hooks
    of a concrete surface). *)
Inductive Error : Type :=
| NegativeSwapLength (swapLength : Time)
| SwapLengthPastMax (swapLength maxLength : Time)
| StrikeOutsideDomain (k lo hi : Rate)
| NegativeSwapTenor (swapTenor : Period.t)
| SwapTenorPastMax (swapTenor maxTenor : Period.t)
| ForeignError (what : string).

Inductive result (A : Type) : Type :=
| Ok (a : A)
| Raise (e : Error).

Arguments Ok {A} a.
Arguments Raise {A} e.

Definition bind {A B : Type} (c : result A) (k : A -> result B) : result B :=
  match c with
  | Ok a => k a
  | Raise e => Raise e
  end.

Declare Scope result_scope.
Delimit Scope result_scope with result.
Notation "x <- c ;; k" := (bind c (fun x => k))
  (at level 61, c at next level, right associativity) : result_scope.
Notation "c ;; k" := (bind c (fun _ => k))
  (at level 61, right associativity) : result_scope.
Open Scope result_scope.

Definition QL_REQUIRE (condition : bool) (e : Error) : result unit :=
  if condition then Ok tt else Raise e.

Definition succeeds {A : Type} (c : result A) : bool :=
  match c with
  | Ok _ => true
  | Raise _ => false
  end.

(** ** The surface *)

Section Surface.

Context {lib : Library}.

(** The object: the part inherited from [TermStructure], the data member
    [bdc_], the pure virtual methods that a concrete surface supplies, and
    one optional override per virtual method that has a body here. *)
Record SwaptionVolatilityStructure : Type := {
  (* TermStructure *)
  referenceDate : Date;
  calendar : Calendar;
  dayCounter : DayCounter;
  allowsExtrapolation : bool;
  (** [TermStructure::checkRange(Time, bool)], not part of the header *)
  TermStructure_checkRange : Time -> bool -> result unit;
  (* data member *)
  bdc_ : BusinessDayConvention;
  (* pure virtual *)
  maxSwapTenor : Period.t;
  minStrike : Rate;
  maxStrike : Rate;
  smileSection : Time -> Time -> result SmileSection;
  volatilityImpl : Time -> Time -> Rate -> result Volatility;
  (* overrides of the virtual methods with a default body *)
  override_maxSwapLength : option Time;
  override_businessDayConvention : option BusinessDayConvention;
  override_convertDates : option (Date -> Period.t -> result (Time * Time));
  override_smileSection_date :
    option (Date -> Period.t -> result SmileSection);
  override_volatilityImpl_date :
    option (Date -> Period.t -> Rate -> result Volatility)
}.

Implicit Type self : SwaptionVolatilityStructure.

(** Modelled from the spec: [TermStructure::timeFromReference], which the
    header calls and does not define. The spec has the option time as the
    continuous time from the reference date of the surface to the date,
    per the day-count convention of the surface. *)
Definition timeFromReference self (d : Date) : Time :=
  DayCounter_yearFraction (dayCounter self) (referenceDate self) d.

(** [businessDayConvention() const { return bdc_; }] *)
Definition base_businessDayConvention self : BusinessDayConvention :=
  bdc_ self.

Definition businessDayConvention self : BusinessDayConvention :=
  match override_businessDayConvention self with
  | Some b => b
  | None => base_businessDayConvention self
  end.

Definition optionDateFromTenor self (optionTenor : Period.t) : Date :=
  Calendar_advance (calendar self) (referenceDate self) optionTenor
                   (businessDayConvention self).

Definition base_maxSwapLength self : Time :=
  timeFromReference self
    (Date_plus_Period (referenceDate self) (maxSwapTenor self)).

Definition maxSwapLength self : Time :=
  match override_maxSwapLength self with
  | Some t => t
  | None => base_maxSwapLength self
  end.

Definition base_convertDates self (optionDate : Date) (swapTenor : Period.t)
  : result (Time * Time) :=
  let end_ := Date_plus_Period optionDate swapTenor in
  QL_REQUIRE (end_ >? optionDate) (NegativeSwapTenor swapTenor) ;;
  let optionTime := timeFromReference self optionDate in
  let timeLength :=
    DayCounter_yearFraction (dayCounter self) optionDate end_ in
  Ok (optionTime, timeLength).

Definition convertDates self : Date -> Period.t -> result (Time * Time) :=
  match override_convertDates self with
  | Some f => f
  | None => base_convertDates self
  end.

Definition base_smileSection_date self (optionDate : Date)
           (swapTenor : Period.t) : result SmileSection :=
  p <- convertDates self optionDate swapTenor ;;
  smileSection self (fst p) (snd p).

Definition smileSection_date self
  : Date -> Period.t -> result SmileSection :=
  match override_smileSection_date self with
  | Some f => f
  | None => base_smileSection_date self
  end.

Definition base_volatilityImpl_date self (optionDate : Date)
           (swapTenor : Period.t) (strike : Rate) : result Volatility :=
  p <- convertDates self optionDate swapTenor ;;
  volatilityImpl self (fst p) (snd p) strike.

Definition volatilityImpl_date self
  : Date -> Period.t -> Rate -> result Volatility :=
  match override_volatilityImpl_date self with
  | Some f => f
  | None => base_volatilityImpl_date self
  end.

(** [checkRange(Time, Time, Rate, bool)]; [x >= y] on doubles is
    [y <= x]. *)
Definition checkRange self (optionTime swapLength : Time) (k : Rate)
           (extrapolate : bool) : result unit :=
  TermStructure_checkRange self optionTime extrapolate ;;
  QL_REQUIRE (0 <=? swapLength)%float (NegativeSwapLength swapLength) ;;
  QL_REQUIRE (extrapolate || allowsExtrapolation self ||
              (swapLength <=? maxSwapLength self)%float)
             (SwapLengthPastMax swapLength (maxSwapLength self)) ;;
  QL_REQUIRE (extrapolate || allowsExtrapolation self ||
              ((minStrike self <=? k)%float && (k <=? maxStrike self)%float))
             (StrikeOutsideDomain k (minStrike self) (maxStrike self)).

(** [checkRange(const Date&, const Period&, Rate, bool)] *)
Definition checkRange_date self (optionDate : Date) (swapTenor : Period.t)
           (k : Rate) (extrapolate : bool) : result unit :=
  TermStructure_checkRange self (timeFromReference self optionDate)
                           extrapolate ;;
  QL_REQUIRE (Period.length swapTenor >? 0) (NegativeSwapTenor swapTenor) ;;
  QL_REQUIRE (extrapolate || allowsExtrapolation self ||
              Period_le swapTenor (maxSwapTenor self))
             (SwapTenorPastMax swapTenor (maxSwapTenor self)) ;;
  QL_REQUIRE (extrapolate || allowsExtrapolation self ||
              ((minStrike self <=? k)%float && (k <=? maxStrike self)%float))
             (StrikeOutsideDomain k (minStrike self) (maxStrike self)).

Definition volatility self (optionTime swapLength : Time) (strike : Rate)
           (extrapolate : bool) : result Volatility :=
  checkRange self optionTime swapLength strike extrapolate ;;
  volatilityImpl self optionTime swapLength strike.

Definition blackVariance self (optionTime swapLength : Time) (strike : Rate)
           (extrapolate : bool) : result Real :=
  checkRange self optionTime swapLength strike extrapolate ;;
  vol <- volatilityImpl self optionTime swapLength strike ;;
  Ok (vol * vol * optionTime)%float.

Definition volatility_date self (optionDate : Date) (swapTenor : Period.t)
           (strike : Rate) (extrapolate : bool) : result Volatility :=
  checkRange_date self optionDate swapTenor strike extrapolate ;;
  volatilityImpl_date self optionDate swapTenor strike.

Definition blackVariance_date self (optionDate : Date)
           (swapTenor : Period.t) (strike : Rate) (extrapolate : bool)
  : result Real :=
  vol <- volatility_date self optionDate swapTenor strike extrapolate ;;
  p <- convertDates self optionDate swapTenor ;;
  Ok (vol * vol * fst p)%float.

Definition volatility_tenor self (optionTenor swapTenor : Period.t)
           (strike : Rate) (extrapolate : bool) : result Volatility :=
  let optionDate := optionDateFromTenor self optionTenor in
  volatility_date self optionDate swapTenor strike extrapolate.

Definition blackVariance_tenor self (optionTenor swapTenor : Period.t)
           (strike : Rate) (extrapolate : bool) : result Real :=
  let optionDate := optionDateFromTenor self optionTenor in
  vol <- volatility_date self optionDate swapTenor strike extrapolate ;;
  p <- convertDates self optionDate swapTenor ;;
  Ok (vol * vol * fst p)%float.

End Surface.

(** ** A small library and two surfaces to run the header on *)

Module Example.

Definition unitDays (u : TimeUnit) : Z :=
  match u with
  | Days => 1
  | Weeks => 7
  | Months => 30
  | Years => 365
  end.

Definition days (p : Period.t) : Z := Period.length p * unitDays (Period.units p).

Definition Z2float (z : Z) : float :=
  if z <? 0 then (- of_uint63 (Uint63.of_Z (- z)))%float
  else of_uint63 (Uint63.of_Z z).

(** Serial numbers count days, every month has 30 days and every year 365,
    the calendar has no holidays and the day counter is actual/365. *)
#[export] Instance lib : Library := {|
  Calendar := unit;
  DayCounter := unit;
  SmileSection := Time * Time;
  Date_plus_Period d p := d + days p;
  Period_le p q := days p <=? days q;
  Calendar_advance _ d p _ := d + days p;
  DayCounter_yearFraction _ d1 d2 := (Z2float (d2 - d1) / 365)%float
|}.

(** A check of the option time in the manner of the base class: the time
    is non-negative, and not past [maxTime] unless extrapolation is on. *)
Definition timeCheck (allows : bool) (maxTime : Time) (t : Time)
           (extrapolate : bool) : result unit :=
  QL_REQUIRE (0 <=? t)%float (ForeignError "negative time given") ;;
  QL_REQUIRE (extrapolate || allows || (t <=? maxTime)%float)
             (ForeignError "time is past max curve time").

(** A flat surface at 25%: options up to 30 years, swaps up to 10 years,
    strikes in [0, 1]; no virtual method is overridden. *)
Definition flat : SwaptionVolatilityStructure := {|
  referenceDate := 0;
  calendar := tt;
  dayCounter := tt;
  allowsExtrapolation := false;
  TermStructure_checkRange := timeCheck false 30%float;
  bdc_ := Following;
  maxSwapTenor := Period.make 10 Years;
  minStrike := 0%float;
  maxStrike := 1%float;
  smileSection t l := Ok (t, l);
  volatilityImpl _ _ _ := Ok 0.25%float;
  override_maxSwapLength := None;
  override_businessDayConvention := None;
  override_convertDates := None;
  override_smileSection_date := None;
  override_volatilityImpl_date := None
|}.

(** The same surface with a maximum swap tenor of -1Y: no virtual method is
    overridden, and [maxSwapLength] is -1. *)
Definition negativeMax : SwaptionVolatilityStructure := {|
  referenceDate := 0;
  calendar := tt;
  dayCounter := tt;
  allowsExtrapolation := false;
  TermStructure_checkRange := timeCheck false 30%float;
  bdc_ := Following;
  maxSwapTenor := Period.make (-1) Years;
  minStrike := 0%float;
  maxStrike := 1%float;
  smileSection t l := Ok (t, l);
  volatilityImpl _ _ _ := Ok 0.25%float;
  override_maxSwapLength := None;
  override_businessDayConvention := None;
  override_convertDates := None;
  override_smileSection_date := None;
  override_volatilityImpl_date := None
|}.

End Example.

(** ** The calibration error of the test-suite

    [getCalibrationError] of test-suite/batesmodel.cpp and the two checks
    that [testDAXCalibration] makes on what it returns. The helpers are
    used through [CalibrationHelper::calibrationError()] only, which is
    taken as a function of the helper. *)

Section CalibrationError.

Context {CalibrationHelper : Type}.
Variable calibrationError : CalibrationHelper -> Real.

(** The body of the loop: [diff = calibrationError()*100.0] and
    [sse += diff*diff]. *)
Definition accumulate (sse : Real) (helper : CalibrationHelper) : Real :=
  let diff := (calibrationError helper * 100)%float in
  (sse + diff * diff)%float.

Definition getCalibrationError (options : list CalibrationHelper) : Real :=
  fold_left accumulate options 0%float.

End CalibrationError.

#[local] Set Warnings "-inexact-float".

(** [std::fabs(calculated - expected) > 2.5], with [expected = 36.6]: the
    calibration is reported as failed. *)
Definition calibrationErrorReported (calculated : Real) : bool :=
  let expected := 36.6%float in
  (2.5 <? abs (calculated - expected))%float.

(** The check of the derived engines, on what [getCalibrationError]
    returned: [calculated = std::fabs(getCalibrationError(options))] and
    [std::fabs(calculated - expectedValues[i]) > tolerance], with
    [tolerance = 0.1]. *)
Definition derivedPricesErrorReported (sse expectedValue : Real) : bool :=
  let tolerance := 0.1%float in
  let calculated := abs sse in
  (tolerance <? abs (calculated - expectedValue))%float.

#[local] Set Warnings "inexact-float".

(** The sign bit of a double is clear, or the double is not a number. *)
Definition signless (x : spec_float) : bool :=
  match x with
  | S754_nan => true
  | S754_zero s | S754_infinity s | S754_finite s _ _ => negb s
  end.

(** ** Predicates of the statements *)

(** The date arithmetic of the library moves a date forward by a period of
    positive length and not forward by any other period. *)
Definition advances_with_length {lib : Library} : Prop :=
  forall (d : Date) (p : Period.t),
    (0 < Period.length p -> d < Date_plus_Period d p)
    /\ (Period.length p <= 0 -> Date_plus_Period d p <= d).

(** The strike is strictly outside the strike domain of the surface. *)
Definition strictly_outside {lib : Library} (self : SwaptionVolatilityStructure)
           (k : Rate) : bool :=
  ((k <? minStrike self) || (maxStrike self <? k))%float.

(** * Facts about the comparisons of doubles *)

Lemma SFcompare_swap (x y : spec_float) :
  SFcompare y x = option_map CompOpp (SFcompare x y).
Proof.
  destruct x as [sx | sx | | sx mx ex], y as [sy | sy | | sy my ey];
    simpl; try destruct sx; try destruct sy; simpl; try reflexivity.
  - rewrite (Z.compare_antisym ex ey).
    destruct (ex ?= ey); simpl; try reflexivity.
    change Eq with (CompOpp Eq) at 1.
    rewrite <- (Pos.compare_cont_antisym mx my Eq), CompOpp_involutive.
    reflexivity.
  - rewrite (Z.compare_antisym ex ey).
    destruct (ex ?= ey); simpl; try reflexivity.
    change Eq with (CompOpp Eq) at 1.
    rewrite <- (Pos.compare_cont_antisym mx my Eq). reflexivity.
Qed.

Lemma SFcompare_Eq_left (a b c : spec_float) :
  SFcompare a b = Some Eq -> SFcompare a c = SFcompare b c.
Proof.
  destruct a as [sa | sa | | sa ma ea], b as [sb | sb | | sb mb eb];
    simpl; try destruct sa; try destruct sb; simpl; try discriminate;
    try reflexivity; intros E.
  - destruct (ea ?= eb) eqn:Ee; try discriminate.
    apply Z.compare_eq in Ee. subst eb.
    assert (ma = mb) as ->; [|reflexivity].
    apply Pos.compare_eq. unfold Pos.compare.
    destruct (Pos.compare_cont Eq ma mb); simpl in E; congruence.
  - destruct (ea ?= eb) eqn:Ee; try discriminate.
    apply Z.compare_eq in Ee. subst eb.
    assert (ma = mb) as ->; [|reflexivity].
    apply Pos.compare_eq. unfold Pos.compare.
    destruct (Pos.compare_cont Eq ma mb); simpl in E; congruence.
Qed.

Section FloatOrder.

Local Open Scope float_scope.

Lemma float_lt_not_ge (a b : float) : (a <? b) = true -> (b <=? a) = false.
Proof.
rewrite ltb_spec, leb_spec. unfold SFltb, SFleb.
rewrite (SFcompare_swap (Prim2SF a) (Prim2SF b)).
destruct (SFcompare (Prim2SF a) (Prim2SF b)) as [[ | | ] | ]; simpl; congruence.
Qed.

Lemma float_nonneg_lt (m x : float) :
(0 <=? m) = true -> (m <? x) = true -> (0 <=? x) = true.
Proof.
rewrite !leb_spec, ltb_spec. unfold SFltb, SFleb.
replace (Prim2SF 0) with (S754_zero false) by reflexivity.
destruct (Prim2SF m) as [sm | sm | | sm mm em],
         (Prim2SF x) as [sx | sx | | sx mx ex];
  simpl; try destruct sm; try destruct sx; simpl; congruence.
Qed.

Lemma float_eq_le_l (k b : float) : (k =? b) = true -> (b <=? k) = true.
Proof.
rewrite eqb_spec, leb_spec. unfold SFeqb, SFleb.
rewrite (SFcompare_swap (Prim2SF k) (Prim2SF b)).
destruct (SFcompare (Prim2SF k) (Prim2SF b)) as [[ | | ] | ]; simpl; congruence.
Qed.

Lemma float_eq_le_r (k b : float) : (k =? b) = true -> (k <=? b) = true.
Proof.
rewrite eqb_spec, leb_spec. unfold SFeqb, SFleb.
destruct (SFcompare (Prim2SF k) (Prim2SF b)) as [[ | | ] | ]; simpl; congruence.
Qed.

Lemma float_eq_le_trans (k lo hi : float) :
(k =? lo) = true -> (lo <=? hi) = true -> (k <=? hi) = true.
Proof.
rewrite eqb_spec, !leb_spec. unfold SFeqb, SFleb. intros E.
rewrite (SFcompare_Eq_left (Prim2SF k) (Prim2SF lo) (Prim2SF hi)); [tauto|].
destruct (SFcompare (Prim2SF k) (Prim2SF lo)) as [[ | | ] | ]; congruence.
Qed.

Lemma float_le_eq_trans (k lo hi : float) :
(k =? hi) = true -> (lo <=? hi) = true -> (lo <=? k) = true.
Proof.
rewrite eqb_spec, !leb_spec. unfold SFeqb, SFleb. intros E.
rewrite (SFcompare_swap (Prim2SF k) (Prim2SF lo)), (SFcompare_swap (Prim2SF hi) (Prim2SF lo)).
rewrite (SFcompare_Eq_left (Prim2SF k) (Prim2SF hi) (Prim2SF lo)); [tauto|].
destruct (SFcompare (Prim2SF k) (Prim2SF hi)) as [[ | | ] | ]; congruence.
Qed.

End FloatOrder.

(** * The error monad *)

Lemma bind_Ok {A B : Type} (a : A) (k : A -> result B) : bind (Ok a) k = k a.
Proof. reflexivity. Qed.

Lemma QL_REQUIRE_inv (b : bool) (e : Error) (k : result unit) :
  (QL_REQUIRE b e ;; k) = (if b then k else Raise e).
Proof. destruct b; reflexivity. Qed.

(** * The range checks *)

Section RangeChecks.

Context {lib : Library}.
Implicit Type self : SwaptionVolatilityStructure.

Local Open Scope float_scope.

(** The time-based check, once the check of the base class has passed, as
    a cascade on the three requirements of the header. *)
Lemma checkRange_cascade self (optionTime swapLength : Time) (k : Rate)
      (extrapolate : bool) :
  TermStructure_checkRange self optionTime extrapolate = Ok tt ->
  checkRange self optionTime swapLength k extrapolate =
  if 0 <=? swapLength then
    if extrapolate || allowsExtrapolation self ||
       (swapLength <=? maxSwapLength self) then
      if extrapolate || allowsExtrapolation self ||
         ((minStrike self <=? k) && (k <=? maxStrike self)) then Ok tt
      else Raise (StrikeOutsideDomain k (minStrike self) (maxStrike self))
    else Raise (SwapLengthPastMax swapLength (maxSwapLength self))
  else Raise (NegativeSwapLength swapLength).
Proof.
  intros Hbase. unfold checkRange. rewrite Hbase, bind_Ok.
  rewrite !QL_REQUIRE_inv. unfold QL_REQUIRE.
  repeat match goal with |- context [if ?b then _ else _] =>
    destruct b; try reflexivity end.
Qed.

(** The same for the date-based check. *)
Lemma checkRange_date_cascade self (optionDate : Date)
      (swapTenor : Period.t) (k : Rate) (extrapolate : bool) :
  TermStructure_checkRange self (timeFromReference self optionDate)
                           extrapolate = Ok tt ->
  checkRange_date self optionDate swapTenor k extrapolate =
  if (Period.length swapTenor >? 0)%Z then
    if extrapolate || allowsExtrapolation self ||
       Period_le swapTenor (maxSwapTenor self) then
      if extrapolate || allowsExtrapolation self ||
         ((minStrike self <=? k) && (k <=? maxStrike self)) then Ok tt
      else Raise (StrikeOutsideDomain k (minStrike self) (maxStrike self))
    else Raise (SwapTenorPastMax swapTenor (maxSwapTenor self))
  else Raise (NegativeSwapTenor swapTenor).
Proof.
  intros Hbase. unfold checkRange_date. rewrite Hbase, bind_Ok.
  rewrite !QL_REQUIRE_inv. unfold QL_REQUIRE.
  repeat match goal with |- context [if ?b then _ else _] =>
    destruct b; try reflexivity end.
Qed.

(** Whatever the check of the base class says, a length that fails
    [swapLength >= 0.0] never gets through. *)
Lemma checkRange_fails_below_zero self (optionTime swapLength : Time)
      (k : Rate) (extrapolate : bool) :
  (0 <=? swapLength) = false ->
  succeeds (checkRange self optionTime swapLength k extrapolate) = false.
Proof.
  intros Hneg. unfold checkRange.
  destruct (TermStructure_checkRange self optionTime extrapolate) as [[] | e];
    [|reflexivity].
  rewrite bind_Ok, QL_REQUIRE_inv, Hneg. reflexivity.
Qed.

Lemma checkRange_date_fails_nonpositive self (optionDate : Date)
      (swapTenor : Period.t) (k : Rate) (extrapolate : bool) :
  (Period.length swapTenor >? 0)%Z = false ->
  succeeds (checkRange_date self optionDate swapTenor k extrapolate) = false.
Proof.
  intros Hneg. unfold checkRange_date.
  destruct (TermStructure_checkRange self _ extrapolate) as [[] | e];
    [|reflexivity].
  rewrite bind_Ok, QL_REQUIRE_inv, Hneg. reflexivity.
Qed.

(** C1, as amended. The second requirement of [checkRange] does not read
    the extrapolation flags. At the time-based entry point it rejects a
    negative [swapLength], whatever the option time, the strike and the
    flags, with the error "negative swapLength" once the check of the base
    class has passed, and it lets every [swapLength >= 0.0] through, zero
    included. At the date-based entry point it rejects every tenor whose
    length is not strictly positive, zero included, with the error
    "negative swap tenor", and lets the tenors of positive length
    through. *)
Theorem checkRange_second_requirement self (optionTime swapLength : Time)
        (optionDate : Date) (swapTenor : Period.t) (k : Rate)
        (extrapolate : bool) :
  ((swapLength <? 0) = true ->
     succeeds (checkRange self optionTime swapLength k extrapolate) = false
     /\ (TermStructure_checkRange self optionTime extrapolate = Ok tt ->
         checkRange self optionTime swapLength k extrapolate
         = Raise (NegativeSwapLength swapLength)))
  /\ ((0 <=? swapLength) = true ->
      TermStructure_checkRange self optionTime extrapolate = Ok tt ->
      forall x, checkRange self optionTime swapLength k extrapolate
                <> Raise (NegativeSwapLength x))
  /\ ((Period.length swapTenor <= 0)%Z ->
      succeeds (checkRange_date self optionDate swapTenor k extrapolate)
      = false
      /\ (TermStructure_checkRange self (timeFromReference self optionDate)
                                   extrapolate = Ok tt ->
          checkRange_date self optionDate swapTenor k extrapolate
          = Raise (NegativeSwapTenor swapTenor)))
  /\ ((0 < Period.length swapTenor)%Z ->
      TermStructure_checkRange self (timeFromReference self optionDate)
                               extrapolate = Ok tt ->
      forall p, checkRange_date self optionDate swapTenor k extrapolate
                <> Raise (NegativeSwapTenor p)).
Proof.
  split; [|split; [|split]].
  - intros Hneg. pose proof (float_lt_not_ge _ _ Hneg) as Hfail. split.
    + apply checkRange_fails_below_zero. exact Hfail.
    + intros Hbase. rewrite (checkRange_cascade _ _ _ _ _ Hbase), Hfail.
      reflexivity.
  - intros Hpos Hbase x. rewrite (checkRange_cascade _ _ _ _ _ Hbase), Hpos.
    repeat match goal with |- context [if ?b then _ else _] =>
      destruct b end; discriminate.
  - intros Hlen.
    assert ((Period.length swapTenor >? 0)%Z = false) as Hfail
        by (rewrite Z.gtb_ltb; apply Z.ltb_ge; exact Hlen).
    split.
    + apply checkRange_date_fails_nonpositive. exact Hfail.
    + intros Hbase. rewrite (checkRange_date_cascade _ _ _ _ _ Hbase), Hfail.
      reflexivity.
  - intros Hlen Hbase p.
    assert ((Period.length swapTenor >? 0)%Z = true) as Hpos
        by (rewrite Z.gtb_ltb; apply Z.ltb_lt; exact Hlen).
    rewrite (checkRange_date_cascade _ _ _ _ _ Hbase), Hpos.
    repeat match goal with |- context [if ?b then _ else _] =>
      destruct b end; discriminate.
Qed.

End RangeChecks.

(** The flat surface: the length -1 and the tenor 0Y are rejected with
    extrapolation on, the length 0 and the tenor 1Y pass the second
    requirement. *)
Lemma checkRange_second_requirement_witness :
  checkRange Example.flat 1 (-1) 0.5 true = Raise (NegativeSwapLength (-1))
  /\ checkRange_date Example.flat 365 (Period.make 0 Years) 0.5 true
     = Raise (NegativeSwapTenor (Period.make 0 Years))
  /\ checkRange Example.flat 1 0 0.5 false <> Raise (NegativeSwapLength 0)
  /\ checkRange_date Example.flat 365 (Period.make 1 Years) 0.5 false
     <> Raise (NegativeSwapTenor (Period.make 1 Years)).
Proof.
  destruct (checkRange_second_requirement
              Example.flat 1 (-1) 365 (Period.make 0 Years) 0.5 true)
    as [Hneg [_ [Hzero _]]].
  destruct (checkRange_second_requirement
              Example.flat 1 0 365 (Period.make 1 Years) 0.5 false)
    as [_ [Hnonneg [_ Hpos]]].
  split; [apply Hneg; reflexivity|].
  split; [apply Hzero; [discriminate | reflexivity]|].
  split; [apply Hnonneg; reflexivity|].
  apply Hpos; reflexivity.
Defined.

(** C1, as stated, fails on a tenor of length zero: the time-based entry
    point accepts the length 0.0, the date-based entry point rejects the
    tenor 0Y, with extrapolation on as well. *)
Lemma checkRange_date_rejects_zero_tenor :
  (0 <= Period.length (Period.make 0 Years))%Z
  /\ checkRange Example.flat 1 0 0.5 true = Ok tt
  /\ checkRange_date Example.flat 365 (Period.make 0 Years) 0.5 true
     = Raise (NegativeSwapTenor (Period.make 0 Years)).
Proof. repeat split. discriminate. Qed.

(** * Coordinates and overloads *)

Section Coordinates.

Context {lib : Library}.
Implicit Type self : SwaptionVolatilityStructure.

Local Open Scope float_scope.

Lemma base_convertDates_forward self (optionDate : Date)
      (swapTenor : Period.t) :
  (optionDate < Date_plus_Period optionDate swapTenor)%Z ->
  base_convertDates self optionDate swapTenor
  = Ok (timeFromReference self optionDate,
        DayCounter_yearFraction (dayCounter self) optionDate
          (Date_plus_Period optionDate swapTenor)).
Proof.
  intros Hlt. unfold base_convertDates.
  replace (Date_plus_Period optionDate swapTenor >? optionDate)%Z with true;
    [reflexivity|].
  symmetry. rewrite Z.gtb_ltb. apply Z.ltb_lt. exact Hlt.
Qed.

Lemma base_convertDates_backward self (optionDate : Date)
      (swapTenor : Period.t) :
  (Date_plus_Period optionDate swapTenor <= optionDate)%Z ->
  base_convertDates self optionDate swapTenor
  = Raise (NegativeSwapTenor swapTenor).
Proof.
  intros Hle. unfold base_convertDates.
  replace (Date_plus_Period optionDate swapTenor >? optionDate)%Z with false;
    [reflexivity|].
  symmetry. rewrite Z.gtb_ltb. apply Z.ltb_ge. exact Hle.
Qed.

(** C2. Each overload of [blackVariance] returns the square of what the
    same overload of [volatility] returns, times the option time of that
    overload: the argument in the time-based form, the first component of
    [convertDates] in the date-based and tenor-based forms. With the
    conversion and the date-based implementation of the base class that
    component is the time from the reference date to the option date. *)
Theorem blackVariance_volatility self (strike : Rate) (extrapolate : bool)
        (vol : Volatility) :
  (forall optionTime swapLength,
      volatility self optionTime swapLength strike extrapolate = Ok vol ->
      blackVariance self optionTime swapLength strike extrapolate
      = Ok (vol * vol * optionTime))
  /\ (forall optionDate swapTenor p,
      volatility_date self optionDate swapTenor strike extrapolate = Ok vol ->
      convertDates self optionDate swapTenor = Ok p ->
      blackVariance_date self optionDate swapTenor strike extrapolate
      = Ok (vol * vol * fst p))
  /\ (forall optionTenor swapTenor p,
      volatility_tenor self optionTenor swapTenor strike extrapolate
      = Ok vol ->
      convertDates self (optionDateFromTenor self optionTenor) swapTenor
      = Ok p ->
      blackVariance_tenor self optionTenor swapTenor strike extrapolate
      = Ok (vol * vol * fst p))
  /\ (forall optionDate swapTenor,
      override_convertDates self = None ->
      override_volatilityImpl_date self = None ->
      volatility_date self optionDate swapTenor strike extrapolate = Ok vol ->
      blackVariance_date self optionDate swapTenor strike extrapolate
      = Ok (vol * vol * timeFromReference self optionDate)).
Proof.
  split; [|split; [|split]].
  - intros optionTime swapLength. unfold volatility, blackVariance.
    destruct (checkRange self optionTime swapLength strike extrapolate)
      as [[] | e]; simpl; [|discriminate].
    intros ->. reflexivity.
  - intros optionDate swapTenor p Hvol Hconv. unfold blackVariance_date.
    rewrite Hvol, bind_Ok, Hconv. reflexivity.
  - intros optionTenor swapTenor p Hvol Hconv.
    unfold blackVariance_tenor. unfold volatility_tenor in Hvol.
    cbv zeta in *. rewrite Hvol, bind_Ok, Hconv. reflexivity.
  - intros optionDate swapTenor Hconv Himpl Hvol.
    unfold blackVariance_date. rewrite Hvol, bind_Ok.
    unfold volatility_date, volatilityImpl_date in Hvol.
    rewrite Himpl in Hvol. unfold base_volatilityImpl_date in Hvol.
    destruct (checkRange_date self optionDate swapTenor strike extrapolate)
      as [[] | e]; simpl in Hvol; [|discriminate].
    unfold convertDates in *. rewrite Hconv in *.
    destruct (Z.lt_ge_cases optionDate
                (Date_plus_Period optionDate swapTenor)) as [Hlt | Hge].
    + rewrite (base_convertDates_forward _ _ _ Hlt). reflexivity.
    + rewrite (base_convertDates_backward _ _ _ Hge) in Hvol.
      discriminate.
Qed.

(** C3. [convertDates] raises if and only if the end date, the option date
    advanced by the tenor, is not after the option date; the error is then
    "negative swap tenor". Otherwise it returns the time from the
    reference date to the option date and the year fraction from the
    option date to the end date. It reads the reference date and the day
    counter of the surface and nothing else, so that no extrapolation
    setting changes its answer; with a date arithmetic that does not move
    a date forward by a period of non-positive length, every such tenor is
    rejected. *)
Theorem convertDates_spec self (optionDate : Date) (swapTenor : Period.t) :
  let end_ := Date_plus_Period optionDate swapTenor in
  (succeeds (base_convertDates self optionDate swapTenor) = false
   <-> (end_ <= optionDate)%Z)
  /\ ((end_ <= optionDate)%Z ->
      base_convertDates self optionDate swapTenor
      = Raise (NegativeSwapTenor swapTenor))
  /\ ((optionDate < end_)%Z ->
      base_convertDates self optionDate swapTenor
      = Ok (timeFromReference self optionDate,
            DayCounter_yearFraction (dayCounter self) optionDate end_))
  /\ (forall other : SwaptionVolatilityStructure,
      referenceDate other = referenceDate self ->
      dayCounter other = dayCounter self ->
      base_convertDates other optionDate swapTenor
      = base_convertDates self optionDate swapTenor)
  /\ (advances_with_length ->
      (Period.length swapTenor <= 0)%Z ->
      base_convertDates self optionDate swapTenor
      = Raise (NegativeSwapTenor swapTenor)).
Proof.
  intros end_. subst end_.
  split; [|split; [|split; [|split]]].
  - destruct (Z.lt_ge_cases optionDate
                (Date_plus_Period optionDate swapTenor)) as [Hlt | Hge].
    + rewrite (base_convertDates_forward _ _ _ Hlt). simpl.
      split; [discriminate | lia].
    + rewrite (base_convertDates_backward _ _ _ Hge). simpl.
      split; [intros _; exact Hge | reflexivity].
  - apply base_convertDates_backward.
  - apply base_convertDates_forward.
  - intros other Href Hdc. unfold base_convertDates, timeFromReference.
    rewrite Href, Hdc. reflexivity.
  - intros Hlib Hlen. apply base_convertDates_backward.
    apply (Hlib optionDate swapTenor). exact Hlen.
Qed.

(** C4. With the date-based [volatilityImpl] of the base class in effect,
    and on an input that passes the range checks of both entry points, the
    date-based [volatility] returns what the time-based [volatility]
    returns on the coordinates that [convertDates] produces. *)
Theorem volatility_date_time_based self (optionDate : Date)
        (swapTenor : Period.t) (strike : Rate) (extrapolate : bool)
        (optionTime swapLength : Time) :
  override_volatilityImpl_date self = None ->
  checkRange_date self optionDate swapTenor strike extrapolate = Ok tt ->
  convertDates self optionDate swapTenor = Ok (optionTime, swapLength) ->
  checkRange self optionTime swapLength strike extrapolate = Ok tt ->
  volatility_date self optionDate swapTenor strike extrapolate
  = volatility self optionTime swapLength strike extrapolate.
Proof.
  intros Himpl Hdate Hconv Htime.
  unfold volatility_date, volatility, volatilityImpl_date.
  rewrite Himpl, Hdate, Htime, !bind_Ok.
  unfold base_volatilityImpl_date. rewrite Hconv. reflexivity.
Qed.

End Coordinates.

(** The flat surface at 25%: the variance at an option time of two years,
    in the three coordinate flavours. *)
Lemma blackVariance_volatility_witness :
  blackVariance Example.flat 2 5 0.5 false = Ok (0.25 * 0.25 * 2)%float
  /\ blackVariance_date Example.flat 730 (Period.make 1 Years) 0.5 false
     = Ok (0.25 * 0.25 * 2)%float
  /\ blackVariance_tenor Example.flat (Period.make 2 Years)
                         (Period.make 1 Years) 0.5 false
     = Ok (0.25 * 0.25 * 2)%float.
Proof.
  destruct (blackVariance_volatility Example.flat 0.5 false 0.25)
    as [Htime [Hdate [Htenor Hbase]]].
  split; [apply Htime; reflexivity|].
  split; [apply (Hbase 730 (Period.make 1 Years)); reflexivity|].
  apply (Htenor (Period.make 2 Years) (Period.make 1 Years) (2, 1)%float);
    reflexivity.
Defined.

(** The flat surface: the tenor 1Y from day 365 converts to (1, 1); the
    tenors -1Y and 0M are rejected. *)
Lemma convertDates_spec_witness :
  base_convertDates Example.flat 365 (Period.make 1 Years) = Ok (1, 1)%float
  /\ base_convertDates Example.flat 365 (Period.make (-1) Years)
     = Raise (NegativeSwapTenor (Period.make (-1) Years))
  /\ base_convertDates Example.flat 365 (Period.make 0 Months)
     = Raise (NegativeSwapTenor (Period.make 0 Months)).
Proof.
  pose proof (convertDates_spec Example.flat 365 (Period.make 1 Years))
    as Hyear.
  pose proof (convertDates_spec Example.flat 365 (Period.make (-1) Years))
    as Hback.
  pose proof (convertDates_spec Example.flat 365 (Period.make 0 Months))
    as Hzero.
  cbv zeta in Hyear, Hback, Hzero.
  destruct Hyear as [_ [_ [Hyear _]]].
  destruct Hback as [_ [Hback _]].
  destruct Hzero as [_ [_ [_ [_ Hzero]]]].
  split; [apply Hyear; reflexivity|].
  split; [apply Hback; discriminate|].
  apply Hzero.
  - intros d [n u]. unfold Date_plus_Period, Example.lib, Example.days.
    simpl. destruct u; simpl; lia.
  - simpl. lia.
Defined.

(** The flat surface: day 365 and the tenor 1Y against the times (1, 1). *)
Lemma volatility_date_time_based_witness :
  volatility_date Example.flat 365 (Period.make 1 Years) 0.5 false
  = volatility Example.flat 1 1 0.5 false.
Proof.
  apply volatility_date_time_based; reflexivity.
Defined.

(** * Extrapolation *)

Section Extrapolation.

Context {lib : Library}.
Implicit Type self : SwaptionVolatilityStructure.

Local Open Scope float_scope.

Lemma volatility_checked self (optionTime swapLength : Time) (strike : Rate)
      (extrapolate : bool) :
  checkRange self optionTime swapLength strike extrapolate = Ok tt ->
  volatility self optionTime swapLength strike extrapolate
  = volatilityImpl self optionTime swapLength strike.
Proof. intros Hcheck. unfold volatility. rewrite Hcheck. reflexivity. Qed.

Lemma volatility_rejected self (optionTime swapLength : Time) (strike : Rate)
      (extrapolate : bool) (e : Error) :
  checkRange self optionTime swapLength strike extrapolate = Raise e ->
  volatility self optionTime swapLength strike extrapolate = Raise e.
Proof. intros Hcheck. unfold volatility. rewrite Hcheck. reflexivity. Qed.

Lemma strictly_outside_fails self (k : Rate) :
  strictly_outside self k = true ->
  (minStrike self <=? k) && (k <=? maxStrike self) = false.
Proof.
  unfold strictly_outside. intros Hout.
  apply orb_true_iff in Hout. destruct Hout as [Hlo | Hhi].
  - rewrite (float_lt_not_ge _ _ Hlo). reflexivity.
  - rewrite (float_lt_not_ge _ _ Hhi). apply andb_false_r.
Qed.

(** C5, as amended. On a surface whose [maxSwapLength] is a non-negative
    number and whose persistent extrapolation setting is off, for a strike
    within the strike bounds and an option time that the check of the base
    class accepts: a query at a [swapLength] equal to [maxSwapLength]
    passes [checkRange] with [extrapolate = false]; a query at a
    [swapLength] strictly greater fails with the error "swapLength is past
    max curve swapLength" with [extrapolate = false] and passes with
    [extrapolate = true]. A query that passes returns what
    [volatilityImpl] returns. *)
Theorem extrapolation_gating self (optionTime swapLength : Time)
        (strike : Rate) :
  allowsExtrapolation self = false ->
  (forall extrapolate,
      TermStructure_checkRange self optionTime extrapolate = Ok tt) ->
  (minStrike self <=? strike) = true ->
  (strike <=? maxStrike self) = true ->
  (0 <=? maxSwapLength self) = true ->
  ((swapLength =? maxSwapLength self) = true ->
     checkRange self optionTime swapLength strike false = Ok tt
     /\ volatility self optionTime swapLength strike false
        = volatilityImpl self optionTime swapLength strike)
  /\ ((maxSwapLength self <? swapLength) = true ->
      volatility self optionTime swapLength strike false
      = Raise (SwapLengthPastMax swapLength (maxSwapLength self))
      /\ checkRange self optionTime swapLength strike true = Ok tt
      /\ volatility self optionTime swapLength strike true
         = volatilityImpl self optionTime swapLength strike).
Proof.
  intros Hallow Hbase Hlo Hhi Hmax. split.
  - intros Heq.
    assert (checkRange self optionTime swapLength strike false = Ok tt)
      as Hcheck.
    { rewrite (checkRange_cascade _ _ _ _ _ (Hbase false)).
      rewrite (float_le_eq_trans _ _ _ Heq Hmax).
      rewrite (float_eq_le_r _ _ Heq), Hallow, Hlo, Hhi. reflexivity. }
    split; [exact Hcheck | apply volatility_checked; exact Hcheck].
  - intros Hgt.
    assert ((0 <=? swapLength) = true) as Hpos
        by exact (float_nonneg_lt _ _ Hmax Hgt).
    split; [|split].
    + apply volatility_rejected.
      rewrite (checkRange_cascade _ _ _ _ _ (Hbase false)).
      rewrite Hpos, Hallow, (float_lt_not_ge _ _ Hgt). reflexivity.
    + rewrite (checkRange_cascade _ _ _ _ _ (Hbase true)), Hpos.
      reflexivity.
    + apply volatility_checked.
      rewrite (checkRange_cascade _ _ _ _ _ (Hbase true)), Hpos.
      reflexivity.
Qed.

(** C6, as amended. On an input that the check of the base class accepts
    and whose instrument coordinate passes the second requirement (a
    [swapLength >= 0.0], a tenor of strictly positive length), a strike
    strictly outside the strike domain makes [checkRange] raise if and
    only if the [extrapolate] flag is false and the persistent
    extrapolation setting is off; the error is "strike is outside the
    curve domain" when the instrument coordinate is within the maximum of
    the surface. On a surface with [minStrike <= maxStrike], a strike
    equal to either bound never raises that error. *)
Theorem strike_requirement self (k : Rate) (extrapolate : bool) :
  (forall optionTime swapLength,
      TermStructure_checkRange self optionTime extrapolate = Ok tt ->
      (0 <=? swapLength) = true ->
      strictly_outside self k = true ->
      (succeeds (checkRange self optionTime swapLength k extrapolate) = false
       <-> extrapolate = false /\ allowsExtrapolation self = false)
      /\ (extrapolate = false -> allowsExtrapolation self = false ->
          (swapLength <=? maxSwapLength self) = true ->
          checkRange self optionTime swapLength k extrapolate
          = Raise (StrikeOutsideDomain k (minStrike self) (maxStrike self))))
  /\ (forall optionDate swapTenor,
      TermStructure_checkRange self (timeFromReference self optionDate)
                               extrapolate = Ok tt ->
      (0 < Period.length swapTenor)%Z ->
      strictly_outside self k = true ->
      (succeeds (checkRange_date self optionDate swapTenor k extrapolate)
       = false
       <-> extrapolate = false /\ allowsExtrapolation self = false)
      /\ (extrapolate = false -> allowsExtrapolation self = false ->
          Period_le swapTenor (maxSwapTenor self) = true ->
          checkRange_date self optionDate swapTenor k extrapolate
          = Raise (StrikeOutsideDomain k (minStrike self) (maxStrike self))))
  /\ ((minStrike self <=? maxStrike self) = true ->
      (k =? minStrike self) = true \/ (k =? maxStrike self) = true ->
      (forall optionTime swapLength x lo hi,
          TermStructure_checkRange self optionTime extrapolate = Ok tt ->
          checkRange self optionTime swapLength k extrapolate
          <> Raise (StrikeOutsideDomain x lo hi))
      /\ (forall optionDate swapTenor x lo hi,
          TermStructure_checkRange self (timeFromReference self optionDate)
                                   extrapolate = Ok tt ->
          checkRange_date self optionDate swapTenor k extrapolate
          <> Raise (StrikeOutsideDomain x lo hi))).
Proof.
  split; [|split].
  - intros optionTime swapLength Hbase Hpos Hout.
    rewrite (checkRange_cascade _ _ _ _ _ Hbase), Hpos.
    rewrite (strictly_outside_fails _ _ Hout).
    destruct extrapolate, (allowsExtrapolation self); simpl;
      try (split; [split; [intros H; discriminate H
                          | intros [H1 H2]; discriminate]
                  | intros H1 H2; discriminate]).
    split.
    + split; [intros _; split; reflexivity|].
      intros _. destruct (swapLength <=? maxSwapLength self); reflexivity.
    + intros _ _ ->. reflexivity.
  - intros optionDate swapTenor Hbase Hpos Hout.
    rewrite (checkRange_date_cascade _ _ _ _ _ Hbase).
    replace (Period.length swapTenor >? 0)%Z with true
      by (symmetry; rewrite Z.gtb_ltb; apply Z.ltb_lt; exact Hpos).
    rewrite (strictly_outside_fails _ _ Hout).
    destruct extrapolate, (allowsExtrapolation self); simpl;
      try (split; [split; [intros H; discriminate H
                          | intros [H1 H2]; discriminate]
                  | intros H1 H2; discriminate]).
    split.
    + split; [intros _; split; reflexivity|].
      intros _. destruct (Period_le swapTenor (maxSwapTenor self));
        reflexivity.
    + intros _ _ ->. reflexivity.
  - intros Hord Hbound.
    assert ((minStrike self <=? k) && (k <=? maxStrike self) = true)
      as Hin.
    { destruct Hbound as [Hlo | Hhi].
      - rewrite (float_eq_le_l _ _ Hlo), (float_eq_le_trans _ _ _ Hlo Hord).
        reflexivity.
      - rewrite (float_le_eq_trans _ _ _ Hhi Hord), (float_eq_le_r _ _ Hhi).
        reflexivity. }
    split.
    + intros optionTime swapLength x lo hi Hbase.
      rewrite (checkRange_cascade _ _ _ _ _ Hbase), Hin, !orb_true_r.
      repeat match goal with |- context [if ?b then _ else _] =>
        destruct b end; discriminate.
    + intros optionDate swapTenor x lo hi Hbase.
      rewrite (checkRange_date_cascade _ _ _ _ _ Hbase), Hin, !orb_true_r.
      repeat match goal with |- context [if ?b then _ else _] =>
        destruct b end; discriminate.
Qed.

End Extrapolation.

(** The flat surface, whose maximum swap length is 10: a query at 10 and a
    query at 10.5. *)
Lemma extrapolation_gating_witness :
  checkRange Example.flat 1 10 0.5 false = Ok tt
  /\ volatility Example.flat 1 10.5 0.5 false
     = Raise (SwapLengthPastMax 10.5 10)
  /\ volatility Example.flat 1 10.5 0.5 true = Ok 0.25%float.
Proof.
  assert (forall extrapolate,
             TermStructure_checkRange Example.flat 1 extrapolate = Ok tt)
    as Hbase by (intros []; reflexivity).
  destruct (extrapolation_gating Example.flat 1 10 0.5
              eq_refl Hbase eq_refl eq_refl eq_refl) as [Hat _].
  destruct (extrapolation_gating Example.flat 1 10.5 0.5
              eq_refl Hbase eq_refl eq_refl eq_refl) as [_ Hpast].
  split; [apply Hat; reflexivity|].
  split; [apply Hpast; reflexivity|].
  apply Hpast; reflexivity.
Defined.

(** C5, as stated, fails on a surface whose [maxSwapLength] is negative:
    the strike is within the bounds and the option time is accepted, yet the
    query at [maxSwapLength] is rejected without extrapolation, and a query
    strictly beyond it is rejected with [extrapolate = true]; both by the
    second requirement of [checkRange]. *)
Lemma negative_maxSwapLength_rejected :
  maxSwapLength Example.negativeMax = (-1)%float
  /\ allowsExtrapolation Example.negativeMax = false
  /\ TermStructure_checkRange Example.negativeMax 1 false = Ok tt
  /\ TermStructure_checkRange Example.negativeMax 1 true = Ok tt
  /\ (minStrike Example.negativeMax <=? 0.5)%float = true
  /\ (0.5 <=? maxStrike Example.negativeMax)%float = true
  /\ volatility Example.negativeMax 1 (maxSwapLength Example.negativeMax)
                0.5 false
     = Raise (NegativeSwapLength (-1))
  /\ (maxSwapLength Example.negativeMax <? -0.5)%float = true
  /\ volatility Example.negativeMax 1 (-0.5) 0.5 true
     = Raise (NegativeSwapLength (-0.5)).
Proof. repeat split. Qed.

(** The flat surface, with strikes in [0, 1]: the strikes 2 and -0.5 are
    outside, the strikes 0 and 1 are the bounds. *)
Lemma strike_requirement_witness :
  checkRange Example.flat 1 5 2 false = Raise (StrikeOutsideDomain 2 0 1)
  /\ checkRange_date Example.flat 365 (Period.make 5 Years) (-0.5) false
     = Raise (StrikeOutsideDomain (-0.5) 0 1)
  /\ succeeds (checkRange Example.flat 1 5 2 true) <> false
  /\ checkRange Example.flat 1 5 1 false <> Raise (StrikeOutsideDomain 1 0 1)
  /\ checkRange_date Example.flat 365 (Period.make 5 Years) 0 false
     <> Raise (StrikeOutsideDomain 0 0 1).
Proof.
  destruct (strike_requirement Example.flat 2 false) as [Htime _].
  destruct (strike_requirement Example.flat (-0.5) false) as [_ [Hdate _]].
  destruct (strike_requirement Example.flat 2 true) as [Hextra _].
  destruct (strike_requirement Example.flat 1 false) as [_ [_ Hhi]].
  destruct (strike_requirement Example.flat 0 false) as [_ [_ Hlo]].
  split; [apply (Htime 1 5)%float; reflexivity|].
  split; [apply (Hdate 365 (Period.make 5 Years)); reflexivity|].
  split.
  - intros Hfail.
    destruct (Hextra 1 5 eq_refl eq_refl eq_refl)%float as [Hiff _].
    apply Hiff in Hfail. destruct Hfail as [Hflag _]. discriminate Hflag.
  - split.
    + apply (Hhi eq_refl (or_intror eq_refl)). reflexivity.
    + apply (Hlo eq_refl (or_introl eq_refl)). reflexivity.
Defined.

(** C6, as stated, fails at the date-based entry point on a tenor of length
    zero: the option date is accepted, the instrument coordinate is not
    negative and the strike is outside the domain, yet the query raises with
    [extrapolate = true]. *)
Lemma zero_tenor_raises_with_extrapolation :
  TermStructure_checkRange Example.flat
    (timeFromReference Example.flat 365) true = Ok tt
  /\ (0 <= Period.length (Period.make 0 Years))%Z
  /\ strictly_outside Example.flat 2 = true
  /\ checkRange_date Example.flat 365 (Period.make 0 Years) 2 true
     = Raise (NegativeSwapTenor (Period.make 0 Years))
  /\ succeeds (volatility_date Example.flat 365 (Period.make 0 Years) 2 true)
     = false
  /\ succeeds (blackVariance_date Example.flat 365 (Period.make 0 Years)
                                  2 true)
     = false.
Proof. repeat split. discriminate. Qed.

(** * Tenors, the default maximum and smile sections *)

Section Delegation.

Context {lib : Library}.
Implicit Type self : SwaptionVolatilityStructure.

(** C7. The tenor-based [volatility] and [blackVariance] return what the
    date-based overloads return at the option date
    [optionDateFromTenor optionTenor], which is the reference date
    advanced by the option tenor on the calendar of the surface under its
    business-day convention. *)
Theorem tenor_overloads_delegate self (optionTenor swapTenor : Period.t)
        (strike : Rate) (extrapolate : bool) :
  volatility_tenor self optionTenor swapTenor strike extrapolate
  = volatility_date self (optionDateFromTenor self optionTenor) swapTenor
                    strike extrapolate
  /\ blackVariance_tenor self optionTenor swapTenor strike extrapolate
     = blackVariance_date self (optionDateFromTenor self optionTenor)
                          swapTenor strike extrapolate
  /\ optionDateFromTenor self optionTenor
     = Calendar_advance (calendar self) (referenceDate self) optionTenor
                        (businessDayConvention self).
Proof.
  split; [|split].
  - unfold volatility_tenor. reflexivity.
  - unfold blackVariance_tenor, blackVariance_date. reflexivity.
  - unfold optionDateFromTenor. reflexivity.
Qed.

(** C8. On a surface that does not override it, [maxSwapLength] is the
    time from the reference date to the reference date advanced by
    [maxSwapTenor]; whenever [convertDates] returns on the reference date
    and [maxSwapTenor], which it does when that end date is after the
    reference date, the time length it returns is [maxSwapLength]. *)
Theorem maxSwapLength_default self :
  override_maxSwapLength self = None ->
  maxSwapLength self
  = timeFromReference self
      (Date_plus_Period (referenceDate self) (maxSwapTenor self))
  /\ (forall p,
      base_convertDates self (referenceDate self) (maxSwapTenor self) = Ok p ->
      snd p = maxSwapLength self)
  /\ (referenceDate self
      < Date_plus_Period (referenceDate self) (maxSwapTenor self) ->
      base_convertDates self (referenceDate self) (maxSwapTenor self)
      = Ok (timeFromReference self (referenceDate self),
            maxSwapLength self)).
Proof.
  intros Hdefault. unfold maxSwapLength. rewrite Hdefault.
  unfold base_maxSwapLength. split; [reflexivity|]. split.
  - intros p Hconv.
    destruct (Z.lt_ge_cases (referenceDate self)
                (Date_plus_Period (referenceDate self) (maxSwapTenor self)))
      as [Hlt | Hge].
    + rewrite (base_convertDates_forward _ _ _ Hlt) in Hconv.
      injection Hconv as <-. reflexivity.
    + rewrite (base_convertDates_backward _ _ _ Hge) in Hconv.
      discriminate.
  - intros Hlt. rewrite (base_convertDates_forward _ _ _ Hlt). reflexivity.
Qed.

(** C10. The date-based [smileSection] of the base class makes no range
    check. With the [convertDates] of the base class, it returns what the
    time-based factory returns on the converted coordinates whenever the
    end date is after the option date, which is the case of every tenor of
    positive length under a date arithmetic that moves such tenors
    forward; it raises "negative swap tenor" otherwise, and nothing else
    of its own. Its answer depends on the reference date, the day counter
    and the factory only: not on the strike bounds, the maximum tenor, the
    extrapolation setting or the check of the base class. *)
Theorem smileSection_date_unchecked self (optionDate : Date)
        (swapTenor : Period.t) :
  override_convertDates self = None ->
  let end_ := Date_plus_Period optionDate swapTenor in
  (optionDate < end_ ->
   base_smileSection_date self optionDate swapTenor
   = smileSection self (timeFromReference self optionDate)
       (DayCounter_yearFraction (dayCounter self) optionDate end_))
  /\ (end_ <= optionDate ->
      base_smileSection_date self optionDate swapTenor
      = Raise (NegativeSwapTenor swapTenor))
  /\ (advances_with_length ->
      0 < Period.length swapTenor ->
      base_smileSection_date self optionDate swapTenor
      = smileSection self (timeFromReference self optionDate)
          (DayCounter_yearFraction (dayCounter self) optionDate end_))
  /\ (forall other : SwaptionVolatilityStructure,
      override_convertDates other = None ->
      referenceDate other = referenceDate self ->
      dayCounter other = dayCounter self ->
      smileSection other = smileSection self ->
      base_smileSection_date other optionDate swapTenor
      = base_smileSection_date self optionDate swapTenor).
Proof.
  intros Hdefault end_. subst end_.
  assert (optionDate < Date_plus_Period optionDate swapTenor ->
          base_smileSection_date self optionDate swapTenor
          = smileSection self (timeFromReference self optionDate)
              (DayCounter_yearFraction (dayCounter self) optionDate
                 (Date_plus_Period optionDate swapTenor))) as Hforward.
  { intros Hlt. unfold base_smileSection_date, convertDates.
    rewrite Hdefault, (base_convertDates_forward _ _ _ Hlt). reflexivity. }
  split; [exact Hforward|]. split; [|split].
  - intros Hge. unfold base_smileSection_date, convertDates.
    rewrite Hdefault, (base_convertDates_backward _ _ _ Hge). reflexivity.
  - intros Hlib Hpos. apply Hforward.
    apply (Hlib optionDate swapTenor). exact Hpos.
  - intros other Hother Href Hdc Hfactory.
    unfold base_smileSection_date, convertDates.
    rewrite Hdefault, Hother, Hfactory.
    unfold base_convertDates, timeFromReference. rewrite Href, Hdc.
    reflexivity.
Qed.

End Delegation.

(** The flat surface: the maximum tenor 10Y is a maximum length of 10. *)
Lemma maxSwapLength_default_witness :
  maxSwapLength Example.flat = 10%float
  /\ base_convertDates Example.flat 0 (Period.make 10 Years)
     = Ok (0, maxSwapLength Example.flat)%float.
Proof.
  destruct (maxSwapLength_default Example.flat eq_refl) as [Hmax [_ Hconv]].
  split; [exact Hmax | apply Hconv; reflexivity].
Defined.

(** The flat surface: an option date a hundred years out and a tenor of
    twenty years, both past the limits of the surface. *)
Lemma smileSection_date_unchecked_witness :
  base_smileSection_date Example.flat 36500 (Period.make 20 Years)
  = Ok (100, 20)%float
  /\ base_smileSection_date Example.flat 36500 (Period.make 0 Years)
     = Raise (NegativeSwapTenor (Period.make 0 Years)).
Proof.
  pose proof (smileSection_date_unchecked
                Example.flat 36500 (Period.make 20 Years) eq_refl) as Hfar.
  pose proof (smileSection_date_unchecked
                Example.flat 36500 (Period.make 0 Years) eq_refl) as Hzero.
  cbv zeta in Hfar, Hzero.
  destruct Hfar as [_ [_ [Hfar _]]]. destruct Hzero as [_ [Hzero _]].
  split.
  - apply Hfar.
    + intros d [n u]. unfold Date_plus_Period, Example.lib, Example.days.
      simpl. destruct u; simpl; lia.
    + simpl. lia.
  - apply Hzero. discriminate.
Defined.

(** The same query that [smileSection] answers is rejected by the checked
    entry points: the option date is past the last option time and the
    tenor is past the maximum tenor of the surface. *)
Example smileSection_answers_where_volatility_raises :
  smileSection_date Example.flat 36500 (Period.make 20 Years)
  = Ok (100, 20)%float
  /\ succeeds (volatility_date Example.flat 36500 (Period.make 20 Years)
                               0.5 false) = false
  /\ volatility_date Example.flat 365 (Period.make 20 Years) 0.5 false
     = Raise (SwapTenorPastMax (Period.make 20 Years) (Period.make 10 Years)).
Proof. repeat split. Qed.

(** * More on the comparisons and the signs of doubles *)

Ltac compare_cases :=
  repeat match goal with
  | H : context [Z.compare ?a ?b] |- _ =>
      destruct (Z.compare_spec a b); try subst; simpl in *
  | |- context [Z.compare ?a ?b] =>
      destruct (Z.compare_spec a b); try subst; simpl in *
  | H : context [Pos.compare_cont Eq ?a ?b] |- _ =>
      change (Pos.compare_cont Eq a b) with (Pos.compare a b) in *;
      destruct (Pos.compare_spec a b); try subst; simpl in *
  | |- context [Pos.compare_cont Eq ?a ?b] =>
      change (Pos.compare_cont Eq a b) with (Pos.compare a b) in *;
      destruct (Pos.compare_spec a b); try subst; simpl in *
  end.

Lemma SFleb_trans (x y z : spec_float) :
  SFleb x y = true -> SFleb y z = true -> SFleb x z = true.
Proof.
  unfold SFleb.
  destruct x as [sx | sx | | sx mx ex], y as [sy | sy | | sy my ey],
           z as [sz | sz | | sz mz ez];
    simpl; try destruct sx; try destruct sy; try destruct sz; simpl;
    try discriminate; try reflexivity; intros Hxy Hyz;
    compare_cases; try discriminate; try reflexivity; try lia.
Qed.

Lemma SFcompare_refl (x : spec_float) :
  x <> S754_nan -> SFcompare x x = Some Eq.
Proof.
  destruct x as [s | s | | s m e]; simpl; try destruct s; try reflexivity;
    try congruence; intros _; rewrite Z.compare_refl, Pos.compare_cont_refl;
    reflexivity.
Qed.

Lemma binary_round_aux_signless (p e : Z) (mx ex : Z) (lx : location) :
  signless (binary_round_aux p e false mx ex lx) = true.
Proof.
  unfold binary_round_aux.
  destruct (shr_fexp p e mx ex lx) as [mrs' e'].
  destruct (shr_fexp p e _ e' loc_Exact) as [mrs'' e''].
  destruct (shr_m mrs''); [reflexivity | | reflexivity].
  destruct (e'' <=? e - p); reflexivity.
Qed.

Lemma SFmul_self_signless (p e : Z) (x : spec_float) :
  signless (SFmul p e x x) = true.
Proof.
  destruct x as [s | s | | s m ex]; try destruct s; simpl; try reflexivity;
    apply binary_round_aux_signless.
Qed.

Lemma SFadd_signless (p e : Z) (x y : spec_float) :
  signless x = true -> signless y = true -> signless (SFadd p e x y) = true.
Proof.
  destruct x as [sx | sx | | sx mx ex], y as [sy | sy | | sy my ey];
    simpl; try destruct sx; try destruct sy; simpl;
    try discriminate; try reflexivity; intros _ _.
  unfold binary_round.
  destruct (shl_align _ _ _) as [mz ez].
  apply binary_round_aux_signless.
Qed.

Lemma signless_abs (x : spec_float) : signless x = true -> SFabs x = x.
Proof.
  destruct x as [s | s | | s m e]; simpl; try destruct s; simpl; congruence.
Qed.

Lemma signless_not_negative (x : spec_float) :
  signless x = true -> SFltb x (S754_zero false) = false.
Proof.
  destruct x as [s | s | | s m e]; simpl; try destruct s; simpl;
    unfold SFltb; simpl; congruence.
Qed.

Lemma SFmul_not_negative (p e : Z) (x t : spec_float) :
  signless x = true -> SFleb (S754_zero false) t = true ->
  SFltb (SFmul p e x t) (S754_zero false) = false.
Proof.
  destruct x as [sx | sx | | sx mx ex], t as [st | st | | st mt et];
    unfold SFleb, SFltb; simpl; try destruct sx; try destruct st; simpl;
    try discriminate; try reflexivity; intros _ _.
  apply (signless_not_negative _ (binary_round_aux_signless p e _ _ _)).
Qed.

Section FloatSigns.

Local Open Scope float_scope.

Lemma float_le_trans (a b c : float) :
  (a <=? b) = true -> (b <=? c) = true -> (a <=? c) = true.
Proof. rewrite !leb_spec. apply SFleb_trans. Qed.

Lemma is_nan_Prim2SF (x : float) : is_nan x = true <-> Prim2SF x = S754_nan.
Proof.
  unfold is_nan. rewrite eqb_spec. unfold SFeqb. split.
  - intros H. destruct (Prim2SF x) eqn:E; try reflexivity;
      rewrite SFcompare_refl in H by discriminate; discriminate.
  - intros ->. reflexivity.
Qed.

Lemma float_nan_not_ge (x y : float) : is_nan x = true -> (y <=? x) = false.
Proof.
  intros Hnan. apply is_nan_Prim2SF in Hnan.
  rewrite leb_spec, Hnan. unfold SFleb.
  destruct (Prim2SF y); reflexivity.
Qed.

Lemma float_nan_not_gt (x y : float) : is_nan x = true -> (y <? x) = false.
Proof.
  intros Hnan. apply is_nan_Prim2SF in Hnan.
  rewrite ltb_spec, Hnan. unfold SFltb.
  destruct (Prim2SF y); reflexivity.
Qed.

Lemma float_square_signless (x : float) : signless (Prim2SF (x * x)) = true.
Proof. rewrite mul_spec. apply SFmul_self_signless. Qed.

Lemma float_signless_abs (x : float) :
  signless (Prim2SF x) = true -> abs x = x.
Proof.
  intros Hsign. apply Prim2SF_inj. rewrite abs_spec.
  apply signless_abs. exact Hsign.
Qed.

End FloatSigns.

(** * More on the range checks *)

Section AcceptedQueries.

Context {lib : Library}.
Implicit Type self : SwaptionVolatilityStructure.

Local Open Scope float_scope.

(** What an accepted query has passed. *)
Lemma checkRange_accepted self (optionTime swapLength : Time) (k : Rate)
      (extrapolate : bool) :
  checkRange self optionTime swapLength k extrapolate = Ok tt <->
  TermStructure_checkRange self optionTime extrapolate = Ok tt
  /\ (0 <=? swapLength) = true
  /\ extrapolate || allowsExtrapolation self
     || (swapLength <=? maxSwapLength self) = true
  /\ extrapolate || allowsExtrapolation self
     || ((minStrike self <=? k) && (k <=? maxStrike self)) = true.
Proof.
  split.
  - intros Hok.
    destruct (TermStructure_checkRange self optionTime extrapolate)
      as [[] | err] eqn:Hbase;
      [|unfold checkRange in Hok; rewrite Hbase in Hok; discriminate].
    rewrite (checkRange_cascade _ _ _ _ _ Hbase) in Hok.
    repeat match type of Hok with context [if ?b then _ else _] =>
      destruct b; try discriminate end.
    repeat split; reflexivity.
  - intros [Hbase [H2 [H3 H4]]].
    rewrite (checkRange_cascade _ _ _ _ _ Hbase), H2, H3, H4. reflexivity.
Qed.

Lemma checkRange_date_accepted self (optionDate : Date)
      (swapTenor : Period.t) (k : Rate) (extrapolate : bool) :
  checkRange_date self optionDate swapTenor k extrapolate = Ok tt <->
  TermStructure_checkRange self (timeFromReference self optionDate)
                           extrapolate = Ok tt
  /\ (Period.length swapTenor >? 0)%Z = true
  /\ extrapolate || allowsExtrapolation self
     || Period_le swapTenor (maxSwapTenor self) = true
  /\ extrapolate || allowsExtrapolation self
     || ((minStrike self <=? k) && (k <=? maxStrike self)) = true.
Proof.
  split.
  - intros Hok.
    destruct (TermStructure_checkRange self (timeFromReference self optionDate)
                                       extrapolate)
      as [[] | err] eqn:Hbase;
      [|unfold checkRange_date in Hok; rewrite Hbase in Hok; discriminate].
    rewrite (checkRange_date_cascade _ _ _ _ _ Hbase) in Hok.
    repeat match type of Hok with context [if ?b then _ else _] =>
      destruct b; try discriminate end.
    repeat split; reflexivity.
  - intros [Hbase [H2 [H3 H4]]].
    rewrite (checkRange_date_cascade _ _ _ _ _ Hbase), H2, H3, H4.
    reflexivity.
Qed.

(** X1. A [swapLength] that is not a number never passes the time-based
    [checkRange], whatever the option time, the strike, the flag and the
    persistent setting: it fails [swapLength >= 0.0], and the error is
    "negative swapLength" once the check of the base class has passed. *)
Theorem checkRange_rejects_nan_length self (optionTime swapLength : Time)
        (k : Rate) (extrapolate : bool) :
  is_nan swapLength = true ->
  succeeds (checkRange self optionTime swapLength k extrapolate) = false
  /\ (TermStructure_checkRange self optionTime extrapolate = Ok tt ->
      checkRange self optionTime swapLength k extrapolate
      = Raise (NegativeSwapLength swapLength)).
Proof.
  intros Hnan. pose proof (float_nan_not_ge _ 0 Hnan) as Hfail. split.
  - apply checkRange_fails_below_zero. exact Hfail.
  - intros Hbase. rewrite (checkRange_cascade _ _ _ _ _ Hbase), Hfail.
    reflexivity.
Qed.

(** X2. Asking for extrapolation never turns an accepted query into a
    rejected one: a query that passes [checkRange] with
    [extrapolate = false] passes it with [extrapolate = true], provided the
    check of the base class accepts the option time with the flag set. The
    same holds at the date-based entry point. *)
Theorem extrapolate_accepts_more self (k : Rate) :
  (forall optionTime swapLength,
      checkRange self optionTime swapLength k false = Ok tt ->
      TermStructure_checkRange self optionTime true = Ok tt ->
      checkRange self optionTime swapLength k true = Ok tt)
  /\ (forall optionDate swapTenor,
      checkRange_date self optionDate swapTenor k false = Ok tt ->
      TermStructure_checkRange self (timeFromReference self optionDate) true
      = Ok tt ->
      checkRange_date self optionDate swapTenor k true = Ok tt).
Proof.
  split.
  - intros optionTime swapLength Hok Hbase.
    apply checkRange_accepted in Hok. destruct Hok as [_ [H2 _]].
    apply checkRange_accepted. repeat split; assumption.
  - intros optionDate swapTenor Hok Hbase.
    apply checkRange_date_accepted in Hok. destruct Hok as [_ [H2 _]].
    apply checkRange_date_accepted. repeat split; assumption.
Qed.

(** X3. When extrapolation is permitted, by the flag or by the persistent
    setting, [checkRange] looks neither at the strike nor at the size of
    the instrument: two queries at the same option time get the same
    answer, whatever their strikes (a strike that is not a number
    included), as soon as both lengths satisfy [swapLength >= 0.0]; at the
    date-based entry point, as soon as both tenors have a positive
    length. *)
Theorem extrapolation_ignores_strike_and_size self (extrapolate : bool)
        (k k' : Rate) :
  extrapolate || allowsExtrapolation self = true ->
  (forall optionTime swapLength swapLength',
      (0 <=? swapLength) = true -> (0 <=? swapLength') = true ->
      checkRange self optionTime swapLength k extrapolate
      = checkRange self optionTime swapLength' k' extrapolate)
  /\ (forall optionDate swapTenor swapTenor',
      (0 < Period.length swapTenor)%Z -> (0 < Period.length swapTenor')%Z ->
      checkRange_date self optionDate swapTenor k extrapolate
      = checkRange_date self optionDate swapTenor' k' extrapolate).
Proof.
  intros Hextra. split.
  - intros optionTime swapLength swapLength' Hpos Hpos'. unfold checkRange.
    destruct (TermStructure_checkRange self optionTime extrapolate)
      as [[] | err]; [|reflexivity].
    rewrite !bind_Ok, !QL_REQUIRE_inv, Hpos, Hpos', Hextra. reflexivity.
  - intros optionDate swapTenor swapTenor' Hpos Hpos'. unfold checkRange_date.
    destruct (TermStructure_checkRange self _ extrapolate)
      as [[] | err]; [|reflexivity].
    apply Z.ltb_lt in Hpos, Hpos'. rewrite <- Z.gtb_ltb in Hpos, Hpos'.
    rewrite !bind_Ok, !QL_REQUIRE_inv, Hpos, Hpos', Hextra. reflexivity.
Qed.

(** X4. The queries that the time-based [checkRange] accepts form a box:
    with a query at [swapLength] accepted, every query at a shorter
    non-negative length is accepted at the same option time and strike;
    with the strikes [lo] and [hi] accepted, every strike between them is
    accepted at the same option time and length. *)
Theorem accepted_queries_form_a_box self (optionTime : Time)
        (extrapolate : bool) :
  (forall swapLength shorter k,
      checkRange self optionTime swapLength k extrapolate = Ok tt ->
      (0 <=? shorter) = true -> (shorter <=? swapLength) = true ->
      checkRange self optionTime shorter k extrapolate = Ok tt)
  /\ (forall swapLength lo hi k,
      checkRange self optionTime swapLength lo extrapolate = Ok tt ->
      checkRange self optionTime swapLength hi extrapolate = Ok tt ->
      (lo <=? k) = true -> (k <=? hi) = true ->
      checkRange self optionTime swapLength k extrapolate = Ok tt).
Proof.
  split.
  - intros swapLength shorter k Hok Hpos Hle.
    apply checkRange_accepted in Hok. destruct Hok as [Hbase [_ [H3 H4]]].
    apply checkRange_accepted. repeat split; try assumption.
    destruct (extrapolate || allowsExtrapolation self); [reflexivity|].
    simpl in *. exact (float_le_trans _ _ _ Hle H3).
  - intros swapLength lo hi k Hlo Hhi Hlok Hkhi.
    apply checkRange_accepted in Hlo, Hhi.
    destruct Hlo as [Hbase [H2 [H3 Hlo]]]. destruct Hhi as [_ [_ [_ Hhi]]].
    apply checkRange_accepted. repeat split; try assumption.
    destruct (extrapolate || allowsExtrapolation self); [reflexivity|].
    simpl in *. apply andb_true_iff in Hlo, Hhi.
    destruct Hlo as [Hlo _]. destruct Hhi as [_ Hhi].
    rewrite (float_le_trans _ _ _ Hlo Hlok), (float_le_trans _ _ _ Hkhi Hhi).
    reflexivity.
Qed.

End AcceptedQueries.

(** * More on the date-based path and on the variance *)

Section VarianceAndDates.

Context {lib : Library}.
Implicit Type self : SwaptionVolatilityStructure.

Local Open Scope float_scope.

(** With the methods of the base class, a date-based volatility that is
    returned has gone through [convertDates]. *)
Lemma volatility_date_converted self (optionDate : Date)
      (swapTenor : Period.t) (strike : Rate) (extrapolate : bool)
      (vol : Volatility) :
  override_convertDates self = None ->
  override_volatilityImpl_date self = None ->
  volatility_date self optionDate swapTenor strike extrapolate = Ok vol ->
  convertDates self optionDate swapTenor
  = Ok (timeFromReference self optionDate,
        DayCounter_yearFraction (dayCounter self) optionDate
          (Date_plus_Period optionDate swapTenor)).
Proof.
  intros Hconv Himpl Hvol.
  unfold volatility_date, volatilityImpl_date in Hvol.
  rewrite Himpl in Hvol. unfold base_volatilityImpl_date in Hvol.
  destruct (checkRange_date self optionDate swapTenor strike extrapolate)
    as [[] | err]; simpl in Hvol; [|discriminate].
  unfold convertDates in *. rewrite Hconv in *.
  destruct (Z.lt_ge_cases optionDate (Date_plus_Period optionDate swapTenor))
    as [Hlt | Hge].
  - apply base_convertDates_forward. exact Hlt.
  - rewrite (base_convertDates_backward _ _ _ Hge) in Hvol. discriminate.
Qed.

Lemma blackVariance_bind self (optionTime swapLength : Time) (strike : Rate)
      (extrapolate : bool) :
  blackVariance self optionTime swapLength strike extrapolate
  = (vol <- volatility self optionTime swapLength strike extrapolate ;;
     Ok (vol * vol * optionTime)).
Proof.
  unfold blackVariance, volatility.
  destruct (checkRange self optionTime swapLength strike extrapolate)
    as [[] | err]; reflexivity.
Qed.

Lemma blackVariance_date_bind self (optionDate : Date) (swapTenor : Period.t)
      (strike : Rate) (extrapolate : bool) :
  override_convertDates self = None ->
  override_volatilityImpl_date self = None ->
  blackVariance_date self optionDate swapTenor strike extrapolate
  = (vol <- volatility_date self optionDate swapTenor strike extrapolate ;;
     Ok (vol * vol * timeFromReference self optionDate)).
Proof.
  intros Hconv Himpl. unfold blackVariance_date.
  destruct (volatility_date self optionDate swapTenor strike extrapolate)
    as [vol | err] eqn:Hvol; [|reflexivity].
  rewrite !bind_Ok.
  rewrite (volatility_date_converted _ _ _ _ _ _ Hconv Himpl Hvol).
  reflexivity.
Qed.

Lemma bind_Ok_raises {A B : Type} (c : result A) (f : A -> B) (err : Error) :
  (x <- c ;; Ok (f x)) = Raise err <-> c = Raise err.
Proof. destruct c; simpl; split; congruence. Qed.

(** X5. With a date arithmetic that moves a date forward by a period of
    positive length, and with the methods of the base class, the
    requirement of [convertDates] never fires on a query that the
    date-based [checkRange] has accepted: the conversion returns, and the
    date-based [volatility] is the time-based implementation on the
    converted coordinates. *)
Theorem accepted_date_query_converts self (optionDate : Date)
        (swapTenor : Period.t) (strike : Rate) (extrapolate : bool) :
  advances_with_length ->
  override_convertDates self = None ->
  override_volatilityImpl_date self = None ->
  checkRange_date self optionDate swapTenor strike extrapolate = Ok tt ->
  let optionTime := timeFromReference self optionDate in
  let timeLength :=
    DayCounter_yearFraction (dayCounter self) optionDate
      (Date_plus_Period optionDate swapTenor) in
  convertDates self optionDate swapTenor = Ok (optionTime, timeLength)
  /\ volatility_date self optionDate swapTenor strike extrapolate
     = volatilityImpl self optionTime timeLength strike.
Proof.
  intros Hlib Hconv Himpl Hok optionTime timeLength.
  subst optionTime timeLength.
  assert ((0 < Period.length swapTenor)%Z) as Hpos.
  { apply checkRange_date_accepted in Hok. destruct Hok as [_ [Hpos _]].
    rewrite Z.gtb_ltb in Hpos. apply Z.ltb_lt. exact Hpos. }
  assert ((optionDate < Date_plus_Period optionDate swapTenor)%Z) as Hlt
      by (apply (Hlib optionDate swapTenor); exact Hpos).
  assert (convertDates self optionDate swapTenor
          = Ok (timeFromReference self optionDate,
                DayCounter_yearFraction (dayCounter self) optionDate
                  (Date_plus_Period optionDate swapTenor))) as Hconverted.
  { unfold convertDates. rewrite Hconv.
    apply base_convertDates_forward. exact Hlt. }
  split; [exact Hconverted|].
  unfold volatility_date, volatilityImpl_date.
  rewrite Hok, Himpl, bind_Ok. unfold base_volatilityImpl_date.
  rewrite Hconverted. reflexivity.
Qed.

(** X6. [blackVariance] raises no error of its own: at the time-based
    entry point it raises an error exactly when [volatility] raises that
    error on the same query, and so do the date-based and the tenor-based
    overloads when the surface keeps the [convertDates] and the date-based
    [volatilityImpl] of the base class (the second call of [convertDates]
    cannot fail where the first one passed). *)
Theorem blackVariance_raises_as_volatility self (strike : Rate)
        (extrapolate : bool) (err : Error) :
  (forall optionTime swapLength,
      blackVariance self optionTime swapLength strike extrapolate = Raise err
      <-> volatility self optionTime swapLength strike extrapolate
          = Raise err)
  /\ (override_convertDates self = None ->
      override_volatilityImpl_date self = None ->
      (forall optionDate swapTenor,
          blackVariance_date self optionDate swapTenor strike extrapolate
          = Raise err
          <-> volatility_date self optionDate swapTenor strike extrapolate
              = Raise err)
      /\ (forall optionTenor swapTenor,
          blackVariance_tenor self optionTenor swapTenor strike extrapolate
          = Raise err
          <-> volatility_tenor self optionTenor swapTenor strike extrapolate
              = Raise err)).
Proof.
  split.
  - intros optionTime swapLength. rewrite blackVariance_bind.
    apply bind_Ok_raises.
  - intros Hconv Himpl. split.
    + intros optionDate swapTenor.
      rewrite (blackVariance_date_bind _ _ _ _ _ Hconv Himpl).
      apply bind_Ok_raises.
    + intros optionTenor swapTenor.
      change (blackVariance_tenor self optionTenor swapTenor strike
                                  extrapolate)
        with (blackVariance_date self (optionDateFromTenor self optionTenor)
                                 swapTenor strike extrapolate).
      unfold volatility_tenor.
      rewrite (blackVariance_date_bind _ _ _ _ _ Hconv Himpl).
      apply bind_Ok_raises.
Qed.

Lemma variance_not_negative (vol t : float) :
  (0 <=? t) = true -> (vol * vol * t <? 0) = false.
Proof.
  intros Ht. rewrite leb_spec in Ht. rewrite ltb_spec, mul_spec.
  change (Prim2SF 0) with (S754_zero false) in *.
  apply SFmul_not_negative; [apply float_square_signless | exact Ht].
Qed.

(** X7. A Black variance is never negative when the option time is not:
    the time-based [blackVariance] on an option time with
    [optionTime >= 0.0], and the date-based one when the option time that
    [convertDates] returns is such, return a number that is not below
    zero (or is not a number). *)
Theorem blackVariance_not_negative self (strike : Rate) (extrapolate : bool)
        (variance : Real) :
  (forall optionTime swapLength,
      (0 <=? optionTime) = true ->
      blackVariance self optionTime swapLength strike extrapolate
      = Ok variance ->
      (variance <? 0) = false)
  /\ (forall optionDate swapTenor p,
      convertDates self optionDate swapTenor = Ok p ->
      (0 <=? fst p) = true ->
      blackVariance_date self optionDate swapTenor strike extrapolate
      = Ok variance ->
      (variance <? 0) = false).
Proof.
  split.
  - intros optionTime swapLength Ht Hvar. rewrite blackVariance_bind in Hvar.
    destruct (volatility self optionTime swapLength strike extrapolate)
      as [vol | err]; simpl in Hvar; [|discriminate].
    injection Hvar as <-. apply variance_not_negative. exact Ht.
  - intros optionDate swapTenor p Hconv Ht Hvar.
    unfold blackVariance_date in Hvar.
    destruct (volatility_date self optionDate swapTenor strike extrapolate)
      as [vol | err]; simpl in Hvar; [|discriminate].
    rewrite Hconv in Hvar. simpl in Hvar.
    injection Hvar as <-. apply variance_not_negative. exact Ht.
Qed.

End VarianceAndDates.

(** * The calibration error *)

Section CalibrationErrorFacts.

Context {CalibrationHelper : Type}.
Variable calibrationError : CalibrationHelper -> Real.

Local Open Scope float_scope.

Lemma accumulate_signless (sse : Real) (helper : CalibrationHelper) :
  signless (Prim2SF sse) = true ->
  signless (Prim2SF (accumulate calibrationError sse helper)) = true.
Proof.
  intros Hsse. unfold accumulate. cbv zeta. rewrite add_spec.
  apply SFadd_signless; [exact Hsse | apply float_square_signless].
Qed.

Lemma loop_signless (options : list CalibrationHelper) (sse : Real) :
  signless (Prim2SF sse) = true ->
  signless (Prim2SF (fold_left (accumulate calibrationError) options sse)) = true.
Proof.
  revert sse. induction options as [|helper rest IH]; intros sse Hsse.
  - exact Hsse.
  - simpl. apply IH, accumulate_signless, Hsse.
Qed.

Lemma getCalibrationError_signless (options : list CalibrationHelper) :
  signless (Prim2SF (getCalibrationError calibrationError options)) = true.
Proof. apply (loop_signless options 0). reflexivity. Qed.

Lemma float_mul_nan_l (x y : float) : is_nan x = true -> is_nan (x * y) = true.
Proof.
  intros Hx. apply is_nan_Prim2SF in Hx. apply is_nan_Prim2SF.
  rewrite mul_spec, Hx. reflexivity.
Qed.

Lemma float_add_nan_l (x y : float) : is_nan x = true -> is_nan (x + y) = true.
Proof.
  intros Hx. apply is_nan_Prim2SF in Hx. apply is_nan_Prim2SF.
  rewrite add_spec, Hx. reflexivity.
Qed.

Lemma float_add_nan_r (x y : float) : is_nan y = true -> is_nan (x + y) = true.
Proof.
  intros Hy. apply is_nan_Prim2SF in Hy. apply is_nan_Prim2SF.
  rewrite add_spec, Hy. destruct (Prim2SF x); reflexivity.
Qed.

Lemma loop_keeps_nan (options : list CalibrationHelper) (sse : Real) :
  is_nan sse = true -> is_nan (fold_left (accumulate calibrationError) options sse) = true.
Proof.
  revert sse. induction options as [|helper rest IH]; intros sse Hsse.
  - exact Hsse.
  - simpl. apply IH. unfold accumulate. cbv zeta.
    apply float_add_nan_l. exact Hsse.
Qed.

Lemma getCalibrationError_nan (options : list CalibrationHelper)
      (helper : CalibrationHelper) :
  In helper options ->
  is_nan (calibrationError helper) = true ->
  is_nan (getCalibrationError calibrationError options) = true.
Proof.
  intros Hin Hnan. unfold getCalibrationError. generalize 0 as sse.
  induction options as [|first rest IH]; intros sse; [contradiction|].
  simpl. destruct Hin as [-> | Hin].
  - apply loop_keeps_nan. unfold accumulate. cbv zeta.
    apply float_add_nan_r, float_mul_nan_l, float_mul_nan_l. exact Hnan.
  - apply IH. exact Hin.
Qed.

Lemma float_eq_zero (x : float) :
  (x =? 0) = true -> exists s, Prim2SF x = S754_zero s.
Proof.
  rewrite eqb_spec. change (Prim2SF 0) with (S754_zero false).
  unfold SFeqb.
  destruct (Prim2SF x) as [s | s | | s m e]; simpl; try destruct s;
    try discriminate; intros _; eexists; reflexivity.
Qed.

Lemma accumulate_zero (helper : CalibrationHelper) :
  (calibrationError helper =? 0) = true -> accumulate calibrationError 0 helper = 0.
Proof.
  intros Hzero. destruct (float_eq_zero _ Hzero) as [s Hs].
  apply Prim2SF_inj. unfold accumulate. cbv zeta.
  rewrite add_spec, !mul_spec, Hs.
  destruct s; reflexivity.
Qed.

(** X8. The sum of squares that [getCalibrationError] returns is never
    below zero: its sign bit is clear unless it is not a number. The
    [std::fabs] that [testDAXCalibration] applies to it returns it
    unchanged. *)
Theorem getCalibrationError_not_negative (options : list CalibrationHelper) :
  (getCalibrationError calibrationError options <? 0) = false
  /\ abs (getCalibrationError calibrationError options)
     = getCalibrationError calibrationError options.
Proof.
  pose proof (getCalibrationError_signless options) as Hsign. split.
  - rewrite ltb_spec. change (Prim2SF 0) with (S754_zero false).
    apply signless_not_negative. exact Hsign.
  - apply float_signless_abs. exact Hsign.
Qed.

(** X9. One helper whose calibration error is not a number is enough for
    [getCalibrationError] to return not-a-number, wherever the helper is in
    the vector and whatever the other errors are. *)
Theorem getCalibrationError_propagates_nan
        (options : list CalibrationHelper) (helper : CalibrationHelper) :
  In helper options ->
  is_nan (calibrationError helper) = true ->
  is_nan (getCalibrationError calibrationError options) = true.
Proof. apply getCalibrationError_nan. Qed.

(** X10. When every helper has a calibration error equal to zero (of
    either sign), [getCalibrationError] returns +0.0; in particular on the
    empty vector. *)
Theorem getCalibrationError_zero (options : list CalibrationHelper) :
  (forall helper, In helper options ->
                  (calibrationError helper =? 0) = true) ->
  getCalibrationError calibrationError options = 0.
Proof.
  unfold getCalibrationError.
  induction options as [|first rest IH]; intros Hzero; [reflexivity|].
  simpl. rewrite accumulate_zero by (apply Hzero; left; reflexivity).
  apply IH. intros helper Hin. apply Hzero. right. exact Hin.
Qed.

(** X11. Neither check of [testDAXCalibration] reports a calibration error
    that is not a number: when one helper has such an error, the
    comparison with the expected 36.6 and the comparison with the expected
    value of a derived engine are both false. *)
Theorem nan_calibration_error_is_not_reported
        (options : list CalibrationHelper) (helper : CalibrationHelper)
        (expectedValue : Real) :
  In helper options ->
  is_nan (calibrationError helper) = true ->
  calibrationErrorReported (getCalibrationError calibrationError options)
  = false
  /\ derivedPricesErrorReported
       (getCalibrationError calibrationError options) expectedValue
     = false.
Proof.
  intros Hin Hnan.
  pose proof (getCalibrationError_nan options helper Hin Hnan) as Hsse.
  apply is_nan_Prim2SF in Hsse.
  unfold calibrationErrorReported, derivedPricesErrorReported. cbv zeta.
  split; apply float_nan_not_gt, is_nan_Prim2SF.
  - rewrite abs_spec, sub_spec, Hsse. reflexivity.
  - rewrite abs_spec, sub_spec, abs_spec, Hsse. reflexivity.
Qed.

End CalibrationErrorFacts.

(** * Runs of the further facts on the flat surface *)

(** A length that is not a number, with extrapolation on. *)
Lemma checkRange_rejects_nan_length_witness :
  checkRange Example.flat 1 nan 0.5 true = Raise (NegativeSwapLength nan).
Proof.
  apply (checkRange_rejects_nan_length Example.flat 1 nan 0.5 true);
    reflexivity.
Defined.

(** A query within the limits of the surface, with and without the flag. *)
Lemma extrapolate_accepts_more_witness :
  checkRange Example.flat 1 5 0.5 true = Ok tt
  /\ checkRange_date Example.flat 365 (Period.make 5 Years) 0.5 true = Ok tt.
Proof.
  destruct (extrapolate_accepts_more Example.flat 0.5) as [Htime Hdate].
  split; [apply Htime; reflexivity | apply Hdate; reflexivity].
Defined.

(** With the flag set, the strike 2 at length 5 against a strike that is
    not a number at length 50. *)
Lemma extrapolation_ignores_strike_and_size_witness :
  checkRange Example.flat 1 5 2 true = checkRange Example.flat 1 50 nan true
  /\ checkRange_date Example.flat 365 (Period.make 5 Years) 2 true
     = checkRange_date Example.flat 365 (Period.make 50 Years) nan true.
Proof.
  destruct (extrapolation_ignores_strike_and_size
              Example.flat true 2 nan eq_refl) as [Htime Hdate].
  split; [apply Htime; reflexivity | apply Hdate; reflexivity].
Defined.

(** Below the accepted length 10, and between the accepted strikes 0 and
    1. *)
Lemma accepted_queries_form_a_box_witness :
  checkRange Example.flat 1 3 0.5 false = Ok tt
  /\ checkRange Example.flat 1 10 0.5 false = Ok tt.
Proof.
  destruct (accepted_queries_form_a_box Example.flat 1 false)
    as [Hlength Hstrike].
  split.
  - apply (Hlength 10 3 0.5)%float; reflexivity.
  - apply (Hstrike 10 0 1 0.5)%float; reflexivity.
Defined.

(** The tenor 1Y from day 365. *)
Lemma accepted_date_query_converts_witness :
  convertDates Example.flat 365 (Period.make 1 Years) = Ok (1, 1)%float
  /\ volatility_date Example.flat 365 (Period.make 1 Years) 0.5 false
     = Ok 0.25%float.
Proof.
  apply (accepted_date_query_converts
           Example.flat 365 (Period.make 1 Years) 0.5 false);
    try reflexivity.
  intros d [n u]. unfold Date_plus_Period, Example.lib, Example.days.
  simpl. destruct u; simpl; lia.
Defined.

(** A length past the maximum, and a tenor past the maximum. *)
Lemma blackVariance_raises_as_volatility_witness :
  blackVariance Example.flat 1 10.5 0.5 false
  = Raise (SwapLengthPastMax 10.5 10)
  /\ blackVariance_date Example.flat 365 (Period.make 20 Years) 0.5 false
     = Raise (SwapTenorPastMax (Period.make 20 Years) (Period.make 10 Years)).
Proof.
  destruct (blackVariance_raises_as_volatility
              Example.flat 0.5 false (SwapLengthPastMax 10.5 10))
    as [Htime _].
  destruct (blackVariance_raises_as_volatility
              Example.flat 0.5 false
              (SwapTenorPastMax (Period.make 20 Years) (Period.make 10 Years)))
    as [_ Hdate].
  destruct (Hdate eq_refl eq_refl) as [Hdate' _].
  split; [apply Htime; reflexivity | apply Hdate'; reflexivity].
Defined.

(** The variance 0.125 at an option time of two years. *)
Lemma blackVariance_not_negative_witness :
  (0.125 <? 0)%float = false.
Proof.
  destruct (blackVariance_not_negative Example.flat 0.5 false 0.125)
    as [Htime _].
  apply (Htime 2 5)%float; reflexivity.
Defined.

(** Three helpers, the second with an error that is not a number. *)
Lemma getCalibrationError_propagates_nan_witness :
  is_nan (getCalibrationError (fun e : Real => e)
            (0.5 :: nan :: 0.25 :: nil)%float) = true.
Proof.
  apply (getCalibrationError_propagates_nan
           (fun e : Real => e) (0.5 :: nan :: 0.25 :: nil)%float nan).
  - right. left. reflexivity.
  - reflexivity.
Defined.

(** Three helpers with the errors 0, -0 and 0. *)
Lemma getCalibrationError_zero_witness :
  getCalibrationError (fun e : Real => e) (0 :: (-0) :: 0 :: nil)%float
  = 0%float.
Proof.
  apply getCalibrationError_zero.
  intros helper [<- | [<- | [<- | []]]]; reflexivity.
Defined.

(** The same three helpers as above, against an expected value of
    5896.25. *)
Lemma nan_calibration_error_is_not_reported_witness :
  calibrationErrorReported
    (getCalibrationError (fun e : Real => e) (0.5 :: nan :: 0.25 :: nil)%float)
  = false
  /\ derivedPricesErrorReported
       (getCalibrationError (fun e : Real => e)
          (0.5 :: nan :: 0.25 :: nil)%float)
       5896.25
     = false.
Proof.
  apply (nan_calibration_error_is_not_reported
           (fun e : Real => e) (0.5 :: nan :: 0.25 :: nil)%float nan).
  - right. left. reflexivity.
  - reflexivity.
Defined.
